(** * ipywidgets: the package entry point and the [Output] widget

    A shallow embedding of [ipywidgets/__init__.py] and of
    [ipywidgets/widgets/widget_output.py].  Python values are a small tagged
    union, the host (IPython, the kernel, the display formatter) is a record
    the code reads, calls into the host are recorded in a trace, and Python
    exceptions are the error half of a state-and-error monad. *)

From stdpp Require Import base strings list gmap pretty.
From Stdlib Require Import ZArith.

Local Open Scope string_scope.
Local Open Scope list_scope.

(** ** Python values *)

#[warnings="-register-all"]
Inductive value :=
| VNone
| VBool (b : bool)
| VInt (n : Z)
| VStr (s : string)
| VTuple (vs : list value)
| VList (vs : list value)
| VDict (d : gmap string value)
| VClass (name : string)                    (* a class object, of a plain class *)
| VObject (cls : string) (args : list value) (* an instance of a plain class *)
| VClassAttr (cls attr : string).           (* [Cls.attr], e.g. a class-level method *)

(** A [VObject] is an instance, given by its class and the arguments it was
    made from, of a class that defines none of [__bool__], [__len__] and
    [__getitem__]: exceptions, tracebacks, modules.  A [VClass] is a class
    with the default metaclass and no [__class_getitem__].  Numbers, strings
    and the builtin containers have their own constructors. *)

(** Python's truth test, as [if x:] and the [with] statement apply it.
    Numbers are false when zero and containers when empty; class objects and
    the instances in [VObject] are true. *)
Definition truthy (v : value) : bool :=
  match v with
  | VNone => false
  | VBool b => b
  | VInt n => negb (Z.eqb n 0)
  | VStr s => negb (String.eqb s EmptyString)
  | VTuple vs => negb (Nat.eqb (length vs) 0)
  | VList vs => negb (Nat.eqb (length vs) 0)
  | VDict d => negb (Nat.eqb (size d) 0)
  | VClass _ | VObject _ _ | VClassAttr _ _ => true
  end.

(** [type(v).__name__] *)
Definition type_name (v : value) : string :=
  match v with
  | VNone => "NoneType"
  | VBool _ => "bool"
  | VInt _ => "int"
  | VStr _ => "str"
  | VTuple _ => "tuple"
  | VList _ => "list"
  | VDict _ => "dict"
  | VClass _ => "type"
  | VObject cls _ => cls
  | VClassAttr _ _ => "method"
  end.

(** ** Exceptions *)

(** A raised exception, as the triple [(etype, evalue, tb)] the interpreter
    hands to [__exit__]; the type is kept by its class name. *)
Record exc := Exc { exc_type : string; exc_value : value; exc_tb : value }.

(** The traceback object of an exception raised by the modelled code. *)
Definition traceback : value := VObject "traceback" [].

(** [AttributeError: '<tyname>' object has no attribute '<attr>'] *)
Definition AttributeError (tyname attr : string) : exc :=
  Exc "AttributeError"
      (VObject "AttributeError"
         [VStr ("'" +:+ tyname +:+ "' object has no attribute '" +:+ attr +:+ "'")])
      traceback.

(** [NameError: name '<name>' is not defined] *)
Definition NameError (name : string) : exc :=
  Exc "NameError"
      (VObject "NameError" [VStr ("name '" +:+ name +:+ "' is not defined")])
      traceback.

(** [KeyError: '<key>'] *)
Definition KeyError (key : string) : exc :=
  Exc "KeyError" (VObject "KeyError" [VStr key]) traceback.

(** [TypeError: <message>] *)
Definition TypeError (message : string) : exc :=
  Exc "TypeError" (VObject "TypeError" [VStr message]) traceback.

(** The [TraitError] of traitlets for a value that a trait refuses, by the
    name of the trait and the value. *)
Definition TraitError (trait : string) (v : value) : exc :=
  Exc "TraitError" (VObject "TraitError" [VStr trait; v]) traceback.

(** ** The host *)

(** A kernel object.  [_parent_header] is [None] when the object has no such
    attribute; otherwise it is the dict the kernel keeps there: empty until
    the first request is handled, then the parent message, whose ['header'] is
    a dict with the request's ['msg_id']. *)
Record kernel := Kernel {
  kernel_id : nat;
  _parent_header : option (gmap string value)
}.

(** An interactive shell.  [shell_kernel] is [None] when the shell has no
    [kernel] attribute, [Some None] when the attribute holds Python's [None]
    and [Some (Some k)] when it holds a kernel. *)
Record shell := Shell {
  shell_class : string;
  shell_kernel : option (option kernel)
}.

(** What the code reads from its host: the interpreter singleton accessor
    [get_ipython()] ([None] outside IPython) and
    [InteractiveShell.instance().display_formatter.format].  The host is the
    same from the start of a run to its end. *)
Record host := Host {
  get_ipython : option shell;
  display_formatter_format : value → value * value
}.

(** ** Calls into the host *)

Inductive stream := stdout | stderr.

Inductive event :=
| Flush (f : stream)                                         (* sys.<f>.flush() *)
| ShowTraceback (ip : shell) (exc_tuple : value) (tb_offset : Z)
| ClearOutput (wait : value)              (* IPython.display.clear_output(wait) *)
| ShellInstance                           (* InteractiveShell.instance() *)
| Format (display_object : value)         (* display_formatter.format(obj) *)
| RegisterTarget (k : kernel) (target_name : string) (f : value).

(** ** The state of an [Output] widget and of its surroundings *)

(** [outputs] is a reference to a tuple object in [tuples]; [msg_id] and
    [outputs] are the two traits the class declares. *)
Record state := State {
  msg_id : string;
  outputs : nat;
  tuples : gmap nat (list value);
  trace : list event
}.

(** The value of [self.outputs]; the trait's default is the empty tuple. *)
Definition read_outputs (s : state) : list value :=
  default [] (tuples s !! outputs s).

(** ** The monad: host, state and exceptions *)

Definition M (A : Type) : Type := host → state → state * (exc + A).

Definition ret {A} (a : A) : M A := λ _ s, (s, inr a).

Definition bind {A B} (m : M A) (k : A → M B) : M B :=
  λ h s, match m h s with
         | (s', inr a) => k a h s'
         | (s', inl e) => (s', inl e)
         end.

Definition raise {A} (e : exc) : M A := λ _ s, (s, inl e).

(** Run [m] and hand back how it ended, raising nothing. *)
Definition catch {A} (m : M A) : M (exc + A) :=
  λ h s, let '(s', r) := m h s in (s', inr r).

Definition ask : M host := λ h s, (s, inr h).
Definition get : M state := λ _ s, (s, inr s).
Definition put (s : state) : M unit := λ _ _, (s, inr tt).

Declare Scope py_scope.
Delimit Scope py_scope with py.
Notation "x <- m ;; k" := (bind m (λ x, k))
  (at level 100, m at next level, right associativity) : py_scope.
Notation "m ;;; k" := (bind m (λ _, k))
  (at level 100, right associativity) : py_scope.
Local Open Scope py_scope.

(** A call into the host, recorded at the end of the trace. *)
Definition emit (e : event) : M unit :=
  s <- get ;;
  put (State (msg_id s) (outputs s) (tuples s) (trace s ++ [e])).

(** [self.msg_id = v] for a string [v] *)
Definition set_msg_id (v : string) : M unit :=
  s <- get ;;
  put (State v (outputs s) (tuples s) (trace s)).

(** [self.msg_id = v] for any value: the trait is declared [Unicode], which
    takes a string and refuses everything else. *)
Definition assign_msg_id (v : value) : M unit :=
  match v with
  | VStr m => set_msg_id m
  | _ => raise (TraitError "msg_id" v)
  end.

(** [v[key]] for a string [key]: a dict answers the value under the key or
    raises [KeyError]; the other values take no string subscript and raise
    [TypeError], with the message of CPython 3.10. *)
Definition subscript (v : value) (key : string) : M value :=
  match v with
  | VDict d =>
      match d !! key with
      | Some x => ret x
      | None => raise (KeyError key)
      end
  | VStr _ => raise (TypeError "string indices must be integers")
  | VTuple _ | VList _ =>
      raise (TypeError (type_name v +:+ " indices must be integers or slices, not str"))
  | _ => raise (TypeError ("'" +:+ type_name v +:+ "' object is not subscriptable"))
  end.

(** [self.outputs = old + items]: tuples are immutable, so the sum is a new
    tuple object, and the attribute is rebound to it. *)
Definition extend_outputs (items : list value) : M unit :=
  s <- get ;;
  let new := fresh (dom (tuples s)) in
  put (State (msg_id s) new (<[new := read_outputs s ++ items]> (tuples s)) (trace s)).

(** ** [ipywidgets/__init__.py] *)

Section Package.

(** [os.path.abspath], [os.path.dirname] and [os.path.join], from the
    standard library. *)
Variables os_path_abspath os_path_dirname : value → value.
Variable os_path_join : value → value → value.

(** The module's global names when one of its functions runs: the names the
    import system sets, then the imports in the order of the file (a later
    binding replaces an earlier one), then the module's own definitions.
    [star] is what [from .widgets import *] binds. *)
Definition module_globals (file : string) (star : gmap string value)
    : gmap string value :=
  <["_handle_ipython" := VClassAttr "ipywidgets" "_handle_ipython"]>
  (<["handle_kernel" := VClassAttr "ipywidgets" "register_comm_target"]>
  (<["register_comm_target" := VClassAttr "ipywidgets" "register_comm_target"]>
  (<["load_ipython_extension" := VClassAttr "ipywidgets" "load_ipython_extension"]>
  (<["find_static_assets" := VClassAttr "ipywidgets" "find_static_assets"]>
  (star ∪
  (<["get_ipython" := VClassAttr "IPython" "get_ipython"]>
  (<["os" := VObject "module" [VStr "os"]]>
  (<["__file__" := VStr file]>
  (<["__name__" := VStr "ipywidgets"]> ∅))))))))).

(** Reading a name that is not a local of the running function: the module's
    globals; no builtin has a name the package reads this way. *)
Definition load_global (g : gmap string value) (name : string) : M value :=
  match g !! name with
  | Some v => ret v
  | None => raise (NameError name)
  end.

(** [find_static_assets()] *)
Definition find_static_assets (g : gmap string value) : M value :=
  file <- load_global g "__file__" ;;
  let here := os_path_abspath file in
  path <- load_global g "path" ;;
  ret (os_path_join (os_path_dirname path) (VStr "static")).

End Package.

(** [Widget.handle_comm_opened] *)
Definition Widget_handle_comm_opened : value := VClassAttr "Widget" "handle_comm_opened".

(** [register_comm_target(kernel=None)]: the argument is [None] or a kernel. *)
Definition register_comm_target (kernel : option kernel) : M value :=
  (match kernel with
   | None =>
       (* ip = get_ipython().kernel: the kernel is bound to [ip], not to [kernel] *)
       h <- ask ;;
       match get_ipython h with
       | None => raise (AttributeError "NoneType" "kernel")
       | Some sh =>
           match shell_kernel sh with
           | None => raise (AttributeError (shell_class sh) "kernel")
           | Some ip => ret tt
           end
       end
   | Some _ => ret tt
   end) ;;;
  (* kernel.comm_manager.register_target('ipython.widget', Widget.handle_comm_opened) *)
  match kernel with
  | None => raise (AttributeError "NoneType" "comm_manager")
  | Some k =>
      emit (RegisterTarget k "ipython.widget" Widget_handle_comm_opened) ;;;
      ret VNone
  end.

(** The deprecated alias. *)
Definition handle_kernel := register_comm_target.

(** [load_ipython_extension(ip)] *)
Definition load_ipython_extension (ip : shell) : M value :=
  match shell_kernel ip with
  | None => ret VNone
  | Some k => register_comm_target k ;;; ret VNone
  end.

(** [_handle_ipython()], run when the package is imported. *)
Definition _handle_ipython : M value :=
  h <- ask ;;
  match get_ipython h with
  | None => ret VNone
  | Some ip => load_ipython_extension ip ;;; ret VNone
  end.

(** ** [ipywidgets/widgets/widget_output.py] *)

(** The binding of a call's arguments to the signature
    [clear_output(wait=False)] of IPython's function: the value of [wait], or
    the [TypeError] of a call the signature does not take.  Positional
    arguments fill the parameters, keywords are bound next, in their order,
    and the positional count is checked last.  [kwargs] are the items of a
    dict in insertion order, so no keyword comes twice. *)
Definition clear_output_wait
    (pargs : list value) (kwargs : list (string * value)) : exc + value :=
  match kwargs with
  | [] =>
      match pargs with
      | [] => inr (VBool false)
      | [w] => inr w
      | _ =>
          inl (TypeError ("clear_output() takes from 0 to 1 positional arguments but "
                          +:+ pretty (length pargs) +:+ " were given"))
      end
  | (k, v) :: rest =>
      if String.eqb k "wait" then
        match pargs, rest with
        | [], [] => inr v
        | [], (k', _) :: _ =>
            inl (TypeError ("clear_output() got an unexpected keyword argument '"
                            +:+ k' +:+ "'"))
        | _ :: _, _ =>
            inl (TypeError "clear_output() got multiple values for argument 'wait'")
        end
      else
        inl (TypeError ("clear_output() got an unexpected keyword argument '"
                        +:+ k +:+ "'"))
  end.

(** [IPython.display.clear_output], imported by the module, applied to the
    positional and keyword arguments it is passed. *)
Definition IPython_display_clear_output
    (pargs : list value) (kwargs : list (string * value)) : M value :=
  match clear_output_wait pargs kwargs with
  | inr wait => emit (ClearOutput wait) ;;; ret VNone
  | inl e => raise e
  end.

(** The class [Output]; the state is the instance [self]. *)
Module Output.

(** [_flush(self)] *)
Definition _flush : M value :=
  emit (Flush stdout) ;;;
  emit (Flush stderr) ;;;
  ret VNone.

(** [__enter__(self)].  A shell object is true, and [hasattr(None,
    '_parent_header')] is false.  The two subscripts and the assignment to
    the trait can each raise. *)
Definition __enter__ : M value :=
  _flush ;;;
  h <- ask ;;
  match get_ipython h with
  | Some ip =>
      match shell_kernel ip with
      | Some (Some k) =>
          match _parent_header k with
          | Some parent =>
              header <- subscript (VDict parent) "header" ;;
              parent_id <- subscript header "msg_id" ;;
              assign_msg_id parent_id ;;;
              ret VNone
          | None => ret VNone
          end
      | Some None => ret VNone
      | None => ret VNone
      end
  | None => ret VNone
  end.

(** [__exit__(self, etype, evalue, tb)] *)
Definition __exit__ (etype evalue tb : value) : M value :=
  h <- ask ;;
  let ip := get_ipython h in
  match etype with
  | VNone => ret tt
  | _ =>
      (* ip.showtraceback((etype, evalue, tb), tb_offset=0) *)
      match ip with
      | None => raise (AttributeError "NoneType" "showtraceback")
      | Some sh => emit (ShowTraceback sh (VTuple [etype; evalue; tb]) 0)
      end
  end ;;;
  _flush ;;;
  set_msg_id EmptyString ;;;
  (* suppress exceptions, since they are shown above *)
  ret (VBool true).

(** [with self: body].  The result is [Some a] when the body ended with [a],
    and [None] when it raised and [__exit__] answered true, so that control
    goes on after the block. *)
Definition with_self {A} (body : M A) : M (option A) :=
  __enter__ ;;;
  r <- catch body ;;
  match r with
  | inr a => __exit__ VNone VNone VNone ;;; ret (Some a)
  | inl e =>
      suppress <- __exit__ (VClass (exc_type e)) (exc_value e) (exc_tb e) ;;
      if truthy suppress then ret None else raise e
  end.

(** [clear_output(self, ...)]: all arguments go on to IPython's function. *)
Definition clear_output (pargs : list value) (kwargs : list (string * value))
    : M value :=
  with_self (IPython_display_clear_output pargs kwargs) ;;;
  ret VNone.

(** [capture(self, clear_output=True, ...)(func)], with the further arguments
    in [outer_args] and [outer_kwargs]: the function [inner] that the
    decorator returns.  [clear] is the argument the
    source names [clear_output]. *)
Definition capture (clear : value)
    (outer_args : list value) (outer_kwargs : list (string * value))
    (func : list value → list (string * value) → M value)
    : list value → list (string * value) → M value :=
  λ args kwargs,
    (if truthy clear then clear_output outer_args outer_kwargs else ret VNone) ;;;
    r <- with_self (func args kwargs) ;;
    match r with
    | Some v => ret v        (* the [return] inside the block *)
    | None => ret VNone      (* the end of [inner] *)
    end.

(** [capture_decorator], the decorator that a call [self.capture(...)]
    returns, applied to [func].  [clear_output] is [None] when that call
    passes no argument for it, and the parameter then has the default [True]
    of the signature [capture(self, clear_output=True, ...)]. *)
Definition capture_decorator (clear_output : option value)
    (outer_args : list value) (outer_kwargs : list (string * value))
    (func : list value → list (string * value) → M value)
    : list value → list (string * value) → M value :=
  capture (default (VBool true) clear_output) outer_args outer_kwargs func.

(** [_append_stream_output(self, text, stream_name)] *)
Definition _append_stream_output (text : value) (stream_name : string) : M value :=
  extend_outputs
    [VDict {[ "output_type" := VStr "stream";
              "name" := VStr stream_name;
              "text" := text ]}] ;;;
  ret VNone.

(** [append_stdout(self, text)] *)
Definition append_stdout (text : value) : M value :=
  _append_stream_output text "stdout".

(** [append_stderr(self, text)] *)
Definition append_stderr (text : value) : M value :=
  _append_stream_output text "stderr".

(** [append_display_data(self, display_object)].
    [InteractiveShell.instance()] answers the running interpreter and makes
    one when there is none; the call is recorded, and the instance is used
    for its formatter only.  What [get_ipython()] answers after an instance
    was made outside IPython is not part of the host record. *)
Definition append_display_data (display_object : value) : M value :=
  h <- ask ;;
  emit ShellInstance ;;;
  let fmt := display_formatter_format h in
  emit (Format display_object) ;;;
  let '(data, metadata) := fmt display_object in
  extend_outputs
    [VDict {[ "output_type" := VStr "display_data";
              "data" := data;
              "metadata" := metadata ]}] ;;;
  ret VNone.

End Output.

(** ** What the statements below speak about *)

(** The three ways to append to the buffer. *)
Inductive append_op :=
| AppendStdout (text : string)
| AppendStderr (text : string)
| AppendDisplayData (display_object : value).

Definition run_append (op : append_op) : M value :=
  match op with
  | AppendStdout text => Output.append_stdout (VStr text)
  | AppendStderr text => Output.append_stderr (VStr text)
  | AppendDisplayData o => Output.append_display_data o
  end.

(** A freshly made widget: no message id, and the empty tuple as [outputs]. *)
Definition new_widget : state := State EmptyString 0 {[ 0 := [] ]} [].

(** A formatter that shows a value as plain text, with no metadata. *)
Definition plain_formatter (v : value) : value * value :=
  (VDict {[ "text/plain" := v ]}, VDict ∅).

(** Plain Python: [get_ipython()] is [None]. *)
Definition no_ipython : host := Host None plain_formatter.

(** Terminal IPython: a shell without a [kernel] attribute. *)
Definition terminal_shell : shell := Shell "TerminalInteractiveShell" None.
Definition terminal_ipython : host := Host (Some terminal_shell) plain_formatter.

(** A kernel serving the request ["req-1"], and its shell. *)
Definition busy_kernel : kernel :=
  Kernel 1 (Some {[ "header" := VDict {[ "msg_id" := VStr "req-1" ]} ]}).
Definition kernel_shell : shell := Shell "ZMQInteractiveShell" (Some (Some busy_kernel)).
Definition kernel_ipython : host := Host (Some kernel_shell) plain_formatter.

(** A kernel that has not handled a request yet: its [_parent_header] is
    the empty dict. *)
Definition idle_kernel : kernel := Kernel 2 (Some ∅).
Definition idle_shell : shell := Shell "ZMQInteractiveShell" (Some (Some idle_kernel)).
Definition idle_ipython : host := Host (Some idle_shell) plain_formatter.

(** A shell whose [kernel] attribute holds [None]. *)
Definition unset_shell : shell := Shell "ZMQInteractiveShell" (Some None).
Definition unset_ipython : host := Host (Some unset_shell) plain_formatter.

(** [raise ValueError('boom')], as a wrapped function and as a triple. *)
Definition boom : exc := Exc "ValueError" (VObject "ValueError" [VStr "boom"]) traceback.
Definition raises_boom (args : list value) (kwargs : list (string * value)) : M value :=
  raise boom.

(** Names that [from .widgets import *] may bind, for the examples. *)
Definition widgets_names : gmap string value :=
  {[ "Widget" := VClass "Widget"; "Output" := VClass "Output" ]}.

(** The [_parent_header] that [__enter__] goes on to read: the interpreter
    is there, its [kernel] attribute holds a kernel, and the kernel has the
    attribute. *)
Definition exposed_parent (h : host) : option (gmap string value) :=
  ip ← get_ipython h;
  attr ← shell_kernel ip;
  k ← attr;
  _parent_header k.

(** The message id in the header of a parent message, when the message has a
    ['header'] that is a dict with a string under ['msg_id']. *)
Definition header_msg_id (parent : gmap string value) : option string :=
  match parent !! "header" with
  | Some (VDict header) =>
      match header !! "msg_id" with
      | Some (VStr m) => Some m
      | _ => None
      end
  | _ => None
  end.

(** The message id of the request the host is handling. *)
Definition parent_msg_id (h : host) : option string :=
  exposed_parent h ≫= header_msg_id.

(** Entering the scope goes through under [h]: there is no parent message to
    read, or it has a header with a message id. *)
Definition enter_ok (h : host) : bool :=
  match exposed_parent h with
  | None => true
  | Some parent => bool_decide (is_Some (header_msg_id parent))
  end.

(** A state after [_flush]. *)
Definition flushed (s : state) : state :=
  State (msg_id s) (outputs s) (tuples s) (trace s ++ [Flush stdout; Flush stderr]).

(** Entering tags the widget whenever the kernel exposes a parent message,
    which is what the guard of [__enter__] tests: [msg_id] becomes the
    message id of that message's header, and stays as it was when no parent
    message is exposed. *)
Definition tags_from_parent (h : host) (s : state) : Prop :=
  match exposed_parent h with
  | Some parent =>
      ∃ m, header_msg_id parent = Some m ∧ msg_id (Output.__enter__ h s).1 = m
  | None => msg_id (Output.__enter__ h s).1 = msg_id s
  end.

(** A widget that already holds one record. *)
Definition used_widget : state :=
  State EmptyString 0
        {[ 0 := [VDict {[ "output_type" := VStr "stream"; "name" := VStr "stdout";
                          "text" := VStr "old" ]}] ]} [].

(** A wrapped function that returns the buffer it finds when it is called. *)
Definition reads_buffer (args : list value) (kwargs : list (string * value))
    : M value :=
  s <- get ;; ret (VTuple (read_outputs s)).

(** A wrapper made with the default [clear_output] has cleared the buffer
    when its function starts: the function finds no record. *)
Definition finds_buffer_cleared (h : host) (s : state) : Prop :=
  (Output.capture_decorator None [] [] reads_buffer [] [] h s).2 = inr (VTuple []).

(** The state in which [inner] calls the wrapped function: after the clear,
    when there is one, and inside the scope. *)
Definition call_state (clear : value)
    (outer_args : list value) (outer_kwargs : list (string * value))
    (h : host) (s : state) : state :=
  (Output.__enter__ h
     (if truthy clear then (Output.clear_output outer_args outer_kwargs h s).1
      else s)).1.

(** What [inner] does once the wrapped function has ended as [r]: it leaves
    the scope, and returns what the [with] statement lets through. *)
Definition leave_and_return (r : state * (exc + value)) (h : host)
    : state * (exc + value) :=
  match r.2 with
  | inr v => (Output.__exit__ VNone VNone VNone ;;; ret v) h r.1
  | inl e =>
      (suppress <- Output.__exit__ (VClass (exc_type e)) (exc_value e) (exc_tb e) ;;
       if truthy suppress then ret VNone else raise e) h r.1
  end.

(** [load_ipython_extension(ip)] registers the widget comm target: the one
    call it adds to the trace is that registration, on some kernel. *)
Definition registers_widget_target (ip : shell) (h : host) (s : state) : Prop :=
  ∃ k, trace (load_ipython_extension ip h s).1
       = trace s ++ [RegisterTarget k "ipython.widget" Widget_handle_comm_opened].

(** [hasattr(ip, 'kernel')] *)
Definition has_kernel_attr (ip : shell) : Prop := is_Some (shell_kernel ip).

(** [register_comm_target()] ends in an [AttributeError] on [None]. *)
Definition fails_on_None (r : state * (exc + value)) : Prop :=
  ∃ attr, r.2 = inl (AttributeError "NoneType" attr).

(** ** Sequences of calls, and what a call leaves alone *)



(** The append calls [ops], one after the other. *)
Fixpoint run_appends (ops : list append_op) : M value :=
  match ops with
  | [] => ret VNone
  | op :: rest => run_append op ;;; run_appends rest
  end.

(** [s'] has the buffer of [s]: [outputs] is bound to the same tuple object,
    and the tuple objects are the same. *)
Definition same_buffer (s s' : state) : Prop :=
  outputs s' = outputs s ∧ tuples s' = tuples s.

(** A wrapped function that returns its first argument. *)
Definition returns_first (args : list value) (kwargs : list (string * value))
    : M value :=
  ret (default VNone (head args)).

(** * Properties *)

(** ** Running the monad *)

Lemma run_extend_outputs items h s :
  extend_outputs items h s =
    (State (msg_id s) (fresh (dom (tuples s)))
           (<[fresh (dom (tuples s)) := read_outputs s ++ items]> (tuples s))
           (trace s), inr tt).
Proof. reflexivity. Qed.

Lemma fresh_tuple_unused (s : state) : tuples s !! fresh (dom (tuples s)) = None.
Proof. apply not_elem_of_dom, is_fresh. Qed.

Lemma read_extend_outputs items h s :
  read_outputs (extend_outputs items h s).1 = read_outputs s ++ items.
Proof.
  rewrite run_extend_outputs. unfold read_outputs at 1. simpl.
  by rewrite lookup_insert_eq.
Qed.

(** Rebinding [outputs] allocates: every tuple object that was there is still
    there, unchanged, and the new one is none of them. *)
Lemma extend_outputs_allocates items h s :
  tuples s ⊆ tuples (extend_outputs items h s).1
  ∧ outputs (extend_outputs items h s).1 ∉ dom (tuples s).
Proof.
  rewrite run_extend_outputs. simpl. split.
  - apply insert_subseteq, fresh_tuple_unused.
  - apply is_fresh.
Qed.

Lemma run_append_stream text name h s :
  Output._append_stream_output text name h s =
    ((extend_outputs
        [VDict {[ "output_type" := VStr "stream"; "name" := VStr name;
                  "text" := text ]}] h s).1, inr VNone).
Proof. reflexivity. Qed.

Lemma run_append_display_data o h s :
  Output.append_display_data o h s =
    ((extend_outputs
        [VDict {[ "output_type" := VStr "display_data";
                  "data" := (display_formatter_format h o).1;
                  "metadata" := (display_formatter_format h o).2 ]}] h
        (State (msg_id s) (outputs s) (tuples s)
               (trace s ++ [ShellInstance; Format o]))).1,
     inr VNone).
Proof.
  unfold Output.append_display_data, bind, ask, emit, get, put.
  destruct (display_formatter_format h o). cbn [fst snd].
  unfold extend_outputs, bind, get, put, read_outputs.
  cbn [msg_id outputs tuples trace fst snd]. by rewrite <- app_assoc.
Qed.

(** The record that [_append_stream_output] builds has the three keys of a
    stream output and no other. *)
Lemma stream_record_shape (name : string) (text : value) :
  let d : gmap string value :=
    {[ "output_type" := VStr "stream"; "name" := VStr name; "text" := text ]} in
  d !! "output_type" = Some (VStr "stream")
  ∧ d !! "name" = Some (VStr name)
  ∧ d !! "text" = Some text
  ∧ dom d = {[ "output_type"; "name"; "text" ]}.
Proof.
  cbv zeta. split; [| split; [| split]].
  - reflexivity.
  - reflexivity.
  - reflexivity.
  - rewrite !dom_insert_L, dom_singleton_L. set_solver.
Qed.

(** The record that [append_display_data] builds has the three keys of a
    display-data output and no other. *)
Lemma display_record_shape (data metadata : value) :
  let d : gmap string value :=
    {[ "output_type" := VStr "display_data"; "data" := data;
       "metadata" := metadata ]} in
  d !! "output_type" = Some (VStr "display_data")
  ∧ d !! "data" = Some data
  ∧ d !! "metadata" = Some metadata
  ∧ dom d = {[ "output_type"; "data"; "metadata" ]}.
Proof.
  cbv zeta. split; [| split; [| split]].
  - reflexivity.
  - reflexivity.
  - reflexivity.
  - rewrite !dom_insert_L, dom_singleton_L. set_solver.
Qed.

(** ** Appending to the buffer *)

(** C2: for every string [text], [append_stdout(text)] returns normally and
    the value of [outputs] afterwards is the value before followed by exactly
    one record, which maps ['output_type'] to ['stream'], ['name'] to
    ['stdout'] and ['text'] to [text] and has no other key; [append_stderr]
    does the same with ['name'] mapped to ['stderr']. *)
Theorem append_stream_one_record (text : string) (h : host) (s : state) :
  (∃ d : gmap string value,
     Output.append_stdout (VStr text) h s
       = ((Output.append_stdout (VStr text) h s).1, inr VNone)
     ∧ read_outputs (Output.append_stdout (VStr text) h s).1
       = read_outputs s ++ [VDict d]
     ∧ d !! "output_type" = Some (VStr "stream")
     ∧ d !! "name" = Some (VStr "stdout")
     ∧ d !! "text" = Some (VStr text)
     ∧ dom d = {[ "output_type"; "name"; "text" ]})
  ∧ (∃ d : gmap string value,
     Output.append_stderr (VStr text) h s
       = ((Output.append_stderr (VStr text) h s).1, inr VNone)
     ∧ read_outputs (Output.append_stderr (VStr text) h s).1
       = read_outputs s ++ [VDict d]
     ∧ d !! "output_type" = Some (VStr "stream")
     ∧ d !! "name" = Some (VStr "stderr")
     ∧ d !! "text" = Some (VStr text)
     ∧ dom d = {[ "output_type"; "name"; "text" ]}).
Proof.
  unfold Output.append_stdout, Output.append_stderr.
  split; eexists; rewrite run_append_stream; cbn [fst snd];
    (split; [reflexivity |]); (split; [apply read_extend_outputs |]);
    apply stream_record_shape.
Qed.

(** C3: for every display object, [append_display_data] returns normally and
    the value of [outputs] afterwards is the value before followed by exactly
    one record, which maps ['output_type'] to ['display_data'] and ['data']
    and ['metadata'] to the two components of what the host's display
    formatter returns for the object, and has no other key. *)
Theorem append_display_data_one_record (o : value) (h : host) (s : state) :
  ∃ d : gmap string value,
    Output.append_display_data o h s
      = ((Output.append_display_data o h s).1, inr VNone)
    ∧ read_outputs (Output.append_display_data o h s).1
      = read_outputs s ++ [VDict d]
    ∧ d !! "output_type" = Some (VStr "display_data")
    ∧ d !! "data" = Some (display_formatter_format h o).1
    ∧ d !! "metadata" = Some (display_formatter_format h o).2
    ∧ dom d = {[ "output_type"; "data"; "metadata" ]}.
Proof.
  eexists. rewrite run_append_display_data. cbn [fst snd].
  split; [reflexivity |].
  split; [exact (read_extend_outputs _ h (State _ _ _ _)) |].
  apply display_record_shape.
Qed.

Lemma run_append_extends op h s :
  ∃ r s0, run_append op h s = ((extend_outputs [r] h s0).1, inr VNone)
          ∧ outputs s0 = outputs s ∧ tuples s0 = tuples s.
Proof.
  destruct op as [text | text | o]; cbn [run_append].
  - eexists _, s. split; [| done].
    exact (run_append_stream (VStr text) "stdout" h s).
  - eexists _, s. split; [| done].
    exact (run_append_stream (VStr text) "stderr" h s).
  - eexists _, _. split; [exact (run_append_display_data o h s) | done].
Qed.

(** C4: every append operation returns normally and rebinds [outputs] to a
    tuple object that did not exist before, whose value is the previous value
    followed by one record (so the previous value is a prefix of it and it is
    one longer), while every tuple object that existed before, the previous
    value of [outputs] among them, is still there with the same items. *)
Theorem append_replaces_with_longer (op : append_op) (h : host) (s : state) :
  (run_append op h s).2 = inr VNone
  ∧ (outputs (run_append op h s).1 ∉ dom (tuples s))
  ∧ tuples s ⊆ tuples (run_append op h s).1
  ∧ (∃ r, read_outputs (run_append op h s).1 = read_outputs s ++ [r])
  ∧ (read_outputs s) `prefix_of` (read_outputs (run_append op h s).1)
  ∧ length (read_outputs (run_append op h s).1) = S (length (read_outputs s)).
Proof.
  destruct (run_append_extends op h s) as (r & s0 & -> & Ho & Ht). cbn [fst snd].
  destruct (extend_outputs_allocates [r] h s0) as [Hsub Hnew].
  pose proof (read_extend_outputs [r] h s0) as Hread.
  assert (read_outputs s0 = read_outputs s) as Hsame
    by (unfold read_outputs; by rewrite Ho, Ht).
  rewrite Hsame in Hread. rewrite Ht in Hsub, Hnew.
  repeat split; try done.
  - by exists r.
  - rewrite Hread. by apply prefix_app_r.
  - rewrite Hread, length_app. simpl. lia.
Qed.

(** Two appends in a row, on a fresh widget. *)
Example append_stdout_then_stderr :
  read_outputs
    (Output.append_stderr (VStr "b") no_ipython
       (Output.append_stdout (VStr "a") no_ipython new_widget).1).1
  = [VDict {[ "output_type" := VStr "stream"; "name" := VStr "stdout";
              "text" := VStr "a" ]};
     VDict {[ "output_type" := VStr "stream"; "name" := VStr "stderr";
              "text" := VStr "b" ]}].
Proof. vm_compute. reflexivity. Qed.

(** The tuple a caller read before an append is the same tuple after it. *)
Example append_keeps_old_tuple :
  let s' := (Output.append_stdout (VStr "a") no_ipython new_widget).1 in
  outputs s' ≠ outputs new_widget
  ∧ tuples s' !! outputs new_widget = Some [].
Proof. vm_compute. split; [discriminate | reflexivity]. Qed.

(** ** Entering and leaving the capture scope *)

Lemma bind_ok {A B} (m : M A) (k : A → M B) h s s' a :
  m h s = (s', inr a) → bind m k h s = k a h s'.
Proof. unfold bind. by intros ->. Qed.

Lemma bind_raise {A B} (m : M A) (k : A → M B) h s s' e :
  m h s = (s', inl e) → bind m k h s = (s', inl e).
Proof. unfold bind. by intros ->. Qed.

Lemma run_flush h s : Output._flush h s = (flushed s, inr VNone).
Proof.
  unfold Output._flush, flushed, bind, emit, get, put, ret. cbn.
  by rewrite <- app_assoc.
Qed.

(** What [__enter__] does after the flush is decided by the parent message
    it finds. *)
Lemma run_enter h s :
  Output.__enter__ h s =
    match exposed_parent h with
    | None => (flushed s, inr VNone)
    | Some parent =>
        (header <- subscript (VDict parent) "header" ;;
         parent_id <- subscript header "msg_id" ;;
         assign_msg_id parent_id ;;;
         ret VNone) h (flushed s)
    end.
Proof.
  unfold Output.__enter__.
  rewrite (bind_ok _ _ _ _ _ _ (run_flush h s)).
  rewrite (bind_ok ask _ h (flushed s) (flushed s) h eq_refl).
  unfold exposed_parent.
  destruct (get_ipython h) as [ip |]; [| done]. cbn.
  destruct (shell_kernel ip) as [[k |] |]; [| done | done]. cbn.
  by destruct (_parent_header k).
Qed.

(** The message with a header that holds a message id: entering sets
    [msg_id] to it. *)
Lemma run_enter_tagged h s parent m :
  exposed_parent h = Some parent → header_msg_id parent = Some m →
  Output.__enter__ h s =
    (State m (outputs s) (tuples s) (trace s ++ [Flush stdout; Flush stderr]),
     inr VNone).
Proof.
  intros Hp Hm. rewrite run_enter, Hp. unfold header_msg_id in Hm.
  unfold subscript at 1, bind at 1.
  destruct (parent !! "header") as [[| | | | | | header | | |] |]; try done.
  cbn. unfold subscript, bind at 1.
  by destruct (header !! "msg_id") as [[| | | m' | | | | | |] |]; simplify_eq.
Qed.

(** Entering, when it goes through. *)
Lemma run_enter_ok h s :
  enter_ok h = true →
  Output.__enter__ h s =
    (State (default (msg_id s) (parent_msg_id h)) (outputs s) (tuples s)
           (trace s ++ [Flush stdout; Flush stderr]), inr VNone).
Proof.
  unfold enter_ok. intros Hok.
  destruct (exposed_parent h) as [parent |] eqn:Hp.
  - apply bool_decide_eq_true in Hok as [m Hm].
    rewrite (run_enter_tagged h s parent m Hp Hm).
    unfold parent_msg_id. rewrite Hp. cbn [mbind option_bind].
    by rewrite Hm.
  - rewrite run_enter, Hp. unfold parent_msg_id. by rewrite Hp.
Qed.

(** Entering, when the parent message cannot be read: an exception after the
    flush, with the widget as it was. *)
Lemma run_enter_raise h s :
  enter_ok h = false → ∃ e, Output.__enter__ h s = (flushed s, inl e).
Proof.
  unfold enter_ok. intros Hok.
  destruct (exposed_parent h) as [parent |] eqn:Hp; [| done].
  apply bool_decide_eq_false in Hok. unfold header_msg_id in Hok.
  assert (∃ e, (header <- subscript (VDict parent) "header" ;;
                parent_id <- subscript header "msg_id" ;;
                assign_msg_id parent_id ;;;
                ret VNone) h (flushed s) = (flushed s, inl e)) as [e He].
  { unfold subscript at 1, bind at 1.
    destruct (parent !! "header") as [hv |]; [| by eexists].
    destruct hv as [| | | | | | header | | |]; cbn; try by eexists.
    unfold subscript, bind at 1.
    destruct (header !! "msg_id") as [mv |]; [| by eexists].
    destruct mv; cbn; try by eexists.
    destruct Hok. by eexists. }
  exists e. by rewrite run_enter, Hp.
Qed.

(** Whether entering goes through depends on the host only. *)
Lemma enter_ok_iff h s :
  (Output.__enter__ h s).2 = inr VNone ↔ enter_ok h = true.
Proof.
  split.
  - destruct (enter_ok h) eqn:Hok; [done |].
    destruct (run_enter_raise h s Hok) as [e ->]. discriminate.
  - intros Hok. by rewrite run_enter_ok.
Qed.

Lemma enter_same_buffer h s : same_buffer s (Output.__enter__ h s).1.
Proof.
  destruct (enter_ok h) eqn:Hok.
  - by rewrite run_enter_ok.
  - by destruct (run_enter_raise h s Hok) as [e ->].
Qed.

Lemma run_exit_none h s :
  Output.__exit__ VNone VNone VNone h s =
    (State EmptyString (outputs s) (tuples s)
           (trace s ++ [Flush stdout; Flush stderr]), inr (VBool true)).
Proof.
  unfold Output.__exit__, bind, ask, ret. rewrite run_flush. reflexivity.
Qed.

Lemma run_exit_shown h sh etype evalue tb s :
  get_ipython h = Some sh → etype ≠ VNone →
  Output.__exit__ etype evalue tb h s =
    (State EmptyString (outputs s) (tuples s)
           (trace s ++ [ShowTraceback sh (VTuple [etype; evalue; tb]) 0;
                        Flush stdout; Flush stderr]), inr (VBool true)).
Proof.
  intros Hip Hty. unfold Output.__exit__, bind at 1 2, ask. rewrite Hip.
  assert (∀ B (a b : B), match etype with VNone => a | _ => b end = b) as ->
    by (by destruct etype).
  unfold emit, bind, get, put. rewrite run_flush. cbn.
  by rewrite <- app_assoc.
Qed.

Lemma run_exit_no_ipython h etype evalue tb s :
  get_ipython h = None → etype ≠ VNone →
  Output.__exit__ etype evalue tb h s =
    (s, inl (AttributeError "NoneType" "showtraceback")).
Proof.
  intros Hip Hty. unfold Output.__exit__, bind at 1 2, ask. rewrite Hip.
  by destruct etype.
Qed.

(** C7: on every entry [__enter__] first flushes standard output and then
    standard error, makes no other call into the host and leaves the buffer
    alone.  When no parent message is exposed (no interpreter, no [kernel]
    attribute, a [kernel] attribute that holds [None], or a kernel without
    [_parent_header]) it returns with [msg_id] as it was.  When the exposed
    parent message has a header that is a dict with a string message id, it
    returns with [msg_id] set to that id.  When the message has no
    ['header'], as the empty dict of a kernel before its first request, or
    the header has no ['msg_id'], it raises [KeyError] for the missing key
    with [msg_id] as it was; a header that is no dict ends in a [TypeError]
    and a message id that is no string in a [TraitError], [msg_id] again as
    it was. *)
Theorem enter_flushes_and_tags (h : host) (s : state) :
  trace (Output.__enter__ h s).1 = trace s ++ [Flush stdout; Flush stderr]
  ∧ same_buffer s (Output.__enter__ h s).1
  ∧ match exposed_parent h with
    | None =>
        (Output.__enter__ h s).2 = inr VNone
        ∧ msg_id (Output.__enter__ h s).1 = msg_id s
    | Some parent =>
        match parent !! "header" with
        | None =>
            (Output.__enter__ h s).2 = inl (KeyError "header")
            ∧ msg_id (Output.__enter__ h s).1 = msg_id s
        | Some (VDict header) =>
            match header !! "msg_id" with
            | None =>
                (Output.__enter__ h s).2 = inl (KeyError "msg_id")
                ∧ msg_id (Output.__enter__ h s).1 = msg_id s
            | Some (VStr m) =>
                (Output.__enter__ h s).2 = inr VNone
                ∧ msg_id (Output.__enter__ h s).1 = m
            | Some v =>
                (Output.__enter__ h s).2 = inl (TraitError "msg_id" v)
                ∧ msg_id (Output.__enter__ h s).1 = msg_id s
            end
        | Some _ =>
            (∃ e, (Output.__enter__ h s).2 = inl e ∧ exc_type e = "TypeError")
            ∧ msg_id (Output.__enter__ h s).1 = msg_id s
        end
    end.
Proof.
  split; [| split; [apply enter_same_buffer |]].
  - destruct (enter_ok h) eqn:Hok.
    + by rewrite run_enter_ok.
    + by destruct (run_enter_raise h s Hok) as [e ->].
  - pose proof (run_enter h s) as He.
    destruct (exposed_parent h) as [parent |]; [| by rewrite He].
    cbv beta iota delta [subscript bind assign_msg_id ret raise] in He.
    destruct (parent !! "header") as [hv |]; [| by rewrite He].
    destruct hv as [| | | | | | header | | |]; cbv beta iota in He;
      try (rewrite He; split; [eexists; split; reflexivity | reflexivity]).
    destruct (header !! "msg_id") as [mv |]; [| by rewrite He].
    destruct mv; by rewrite He.
Qed.

(** Under a kernel that has not handled a request, where [_parent_header] is
    the empty dict, a parent message is exposed and entering does not set
    [msg_id] from it: there is no header to take an id from, and [__enter__]
    raises [KeyError] after the flush. *)
Lemma enter_under_idle_kernel :
  exposed_parent idle_ipython = Some ∅
  ∧ ¬ tags_from_parent idle_ipython new_widget
  ∧ Output.__enter__ idle_ipython new_widget
    = (State EmptyString 0 {[ 0 := [] ]} [Flush stdout; Flush stderr],
       inl (KeyError "header")).
Proof.
  split; [reflexivity |]. split; [| reflexivity].
  unfold tags_from_parent.
  change (exposed_parent idle_ipython) with (Some (∅ : gmap string value)).
  cbv beta iota. intros (m & Hm & _).
  unfold header_msg_id in Hm. by rewrite lookup_empty in Hm.
Qed.

(** The [with] statement under that kernel: the body does not run. *)
Example with_under_idle_kernel :
  Output.with_self (Output.append_stdout (VStr "a")) idle_ipython new_widget
  = (State EmptyString 0 {[ 0 := [] ]} [Flush stdout; Flush stderr],
     inl (KeyError "header")).
Proof. reflexivity. Qed.

Example enter_busy_kernel_tags :
  Output.__enter__ kernel_ipython new_widget
  = (State "req-1" 0 {[ 0 := [] ]} [Flush stdout; Flush stderr], inr VNone).
Proof. reflexivity. Qed.

(** ** The [with] statement and the capture decorator *)

Lemma enter_pair h s :
  (Output.__enter__ h s).2 = inr VNone →
  Output.__enter__ h s = ((Output.__enter__ h s).1, inr VNone).
Proof. destruct (Output.__enter__ h s) as [s1 r]. cbn. by intros ->. Qed.

Lemma run_with_self {A} (body : M A) h s :
  (Output.__enter__ h s).2 = inr VNone →
  Output.with_self body h s =
    match body h (Output.__enter__ h s).1 with
    | (s2, inr a) => (Output.__exit__ VNone VNone VNone ;;; ret (Some a)) h s2
    | (s2, inl e) =>
        (suppress <- Output.__exit__ (VClass (exc_type e)) (exc_value e) (exc_tb e) ;;
         if truthy suppress then ret None else raise e) h s2
    end.
Proof.
  intros He. unfold Output.with_self.
  rewrite (bind_ok _ _ _ _ _ _ (enter_pair h s He)).
  unfold bind at 1, catch.
  by destruct (body h _) as [s2 [e | a]].
Qed.

(** When entering raises, the body does not run and the exception leaves the
    [with] statement. *)
Lemma with_self_enter_raise {A} (body : M A) h s s1 e :
  Output.__enter__ h s = (s1, inl e) → Output.with_self body h s = (s1, inl e).
Proof.
  intros He. unfold Output.with_self. by rewrite (bind_raise _ _ _ _ _ _ He).
Qed.

Lemma with_self_done_enter_ok {A} (body : M A) h s s' r :
  Output.with_self body h s = (s', inr r) → enter_ok h = true.
Proof.
  destruct (enter_ok h) eqn:Hok; [done |].
  destruct (run_enter_raise h s Hok) as [e He].
  by rewrite (with_self_enter_raise body h s _ e He).
Qed.

(** Whenever the [with] statement ends without raising, [msg_id] is empty
    afterwards. *)
Lemma with_self_done_msg_id {A} (body : M A) h s s' r :
  Output.with_self body h s = (s', inr r) → msg_id s' = EmptyString.
Proof.
  intros Hdone. pose proof (with_self_done_enter_ok body h s s' r Hdone) as Hok.
  rewrite run_with_self in Hdone by by apply enter_ok_iff.
  revert Hdone. destruct (body h _) as [s2 [e | a]].
  - destruct (get_ipython h) as [sh |] eqn:Hip.
    + rewrite (bind_ok _ _ _ _ _ _
                 (run_exit_shown h sh (VClass (exc_type e)) (exc_value e)
                    (exc_tb e) s2 Hip ltac:(discriminate))).
      cbn. by intros [= <- _].
    + rewrite (bind_raise _ _ _ _ _ _
                 (run_exit_no_ipython h (VClass (exc_type e)) (exc_value e)
                    (exc_tb e) s2 Hip ltac:(discriminate))).
      discriminate.
  - rewrite (bind_ok _ _ _ _ _ _ (run_exit_none h s2)).
    cbn. by intros [= <- _].
Qed.

(** [inner], after the optional clear: the wrapped function runs in the state
    [__enter__] leaves, and [inner] goes on from how it ended. *)
Lemma run_with_self_return (body : M value) h s :
  (Output.__enter__ h s).2 = inr VNone →
  (r <- Output.with_self body ;;
   match r with Some v => ret v | None => ret VNone end) h s
  = leave_and_return (body h (Output.__enter__ h s).1) h.
Proof.
  intros He. unfold bind at 1. rewrite (run_with_self body h s He).
  unfold leave_and_return.
  destruct (body h _) as [s2 [e | v]]; cbn [fst snd].
  - unfold bind.
    destruct (Output.__exit__ _ _ _ h s2) as [s3 [e' | b]]; [done |].
    by destruct (truthy b).
  - unfold bind.
    by destruct (Output.__exit__ _ _ _ h s2) as [s3 [e' | b]].
Qed.

(** IPython's [clear_output], called with arguments its signature takes. *)
Lemma run_clear_output pargs kwargs h s w :
  enter_ok h = true → clear_output_wait pargs kwargs = inr w →
  Output.clear_output pargs kwargs h s =
    (State EmptyString (outputs s) (tuples s)
           (trace s ++ [Flush stdout; Flush stderr; ClearOutput w;
                        Flush stdout; Flush stderr]), inr VNone).
Proof.
  intros Hok Hw. unfold Output.clear_output.
  unfold bind at 1. rewrite run_with_self by by apply enter_ok_iff.
  rewrite run_enter_ok by done. cbn [fst].
  unfold IPython_display_clear_output. rewrite Hw.
  unfold emit, bind, get, put, ret. rewrite run_exit_none. cbn.
  by rewrite <- !app_assoc.
Qed.

(** IPython's [clear_output], called with arguments its signature refuses,
    under an interpreter: the [TypeError] is shown and the method returns. *)
Lemma run_clear_output_refused pargs kwargs h sh s e :
  enter_ok h = true → get_ipython h = Some sh →
  clear_output_wait pargs kwargs = inl e →
  Output.clear_output pargs kwargs h s =
    (State EmptyString (outputs s) (tuples s)
           (trace s ++ [Flush stdout; Flush stderr;
                        ShowTraceback sh
                          (VTuple [VClass (exc_type e); exc_value e; exc_tb e]) 0;
                        Flush stdout; Flush stderr]), inr VNone).
Proof.
  intros Hok Hip Hw. unfold Output.clear_output.
  unfold bind at 1. rewrite run_with_self by by apply enter_ok_iff.
  rewrite run_enter_ok by done. cbn [fst].
  unfold IPython_display_clear_output. rewrite Hw. unfold raise at 1.
  rewrite (bind_ok _ _ _ _ _ _
             (run_exit_shown h sh (VClass (exc_type e)) (exc_value e) (exc_tb e)
                _ Hip ltac:(discriminate))).
  cbn. by rewrite <- !app_assoc.
Qed.

Lemma run_capture
    (clear : value) (outer_args : list value) (outer_kwargs : list (string * value))
    (func : list value → list (string * value) → M value)
    (args : list value) (kwargs : list (string * value)) (h : host) (s : state) :
  enter_ok h = true →
  (truthy clear = true →
   (Output.clear_output outer_args outer_kwargs h s).2 = inr VNone) →
  Output.capture clear outer_args outer_kwargs func args kwargs h s
    = leave_and_return
        (func args kwargs h (call_state clear outer_args outer_kwargs h s)) h.
Proof.
  intros Hok Hclear. unfold Output.capture, call_state.
  destruct (truthy clear).
  - specialize (Hclear eq_refl).
    destruct (Output.clear_output outer_args outer_kwargs h s) as [s1 r] eqn:Hc.
    cbn in Hclear. subst r.
    rewrite (bind_ok _ _ _ _ _ _ Hc). cbn [fst].
    by rewrite run_with_self_return by by apply enter_ok_iff.
  - rewrite (bind_ok (ret VNone) _ h s s VNone eq_refl).
    by rewrite run_with_self_return by by apply enter_ok_iff.
Qed.

(** C8: an invocation of a wrapper under a host where entering the scope
    goes through.  The wrapped function is called once, in the state
    [call_state], and [inner] goes on from how that call ended by leaving the
    scope.  When [clear_output] is true, which it is when the call of
    [capture] does not pass it, and the decorator's further arguments fit
    the signature of IPython's [clear_output], the calls into the host before
    the function starts are: the flushes of entering the scope, IPython's
    [clear_output] with the value bound to [wait], the flushes of leaving the
    scope, and the flushes of entering it again.  When [clear_output] is
    false they are the flushes of entering the scope only, with no clear.
    In both cases the function starts inside the scope, with [msg_id] set by
    [__enter__], and the [outputs] attribute it finds is the one from before
    the invocation: the clear is a call into the host and does not empty the
    buffer on the Python side. *)
Theorem capture_calls_clear_then_function
    (clear_output : option value)
    (outer_args : list value) (outer_kwargs : list (string * value))
    (func : list value → list (string * value) → M value)
    (args : list value) (kwargs : list (string * value))
    (h : host) (s : state) (wait : value) :
  (Output.__enter__ h s).2 = inr VNone →
  (truthy (default (VBool true) clear_output) = true →
   clear_output_wait outer_args outer_kwargs = inr wait) →
  let clear := default (VBool true) clear_output in
  let s_in := call_state clear outer_args outer_kwargs h s in
  Output.capture_decorator clear_output outer_args outer_kwargs func args kwargs h s
    = leave_and_return (func args kwargs h s_in) h
  ∧ trace s_in
    = trace s
      ++ (if truthy clear
          then [Flush stdout; Flush stderr; ClearOutput wait;
                Flush stdout; Flush stderr]
          else [])
      ++ [Flush stdout; Flush stderr]
  ∧ msg_id s_in
    = default (if truthy clear then EmptyString else msg_id s) (parent_msg_id h)
  ∧ same_buffer s s_in
  ∧ read_outputs s_in = read_outputs s.
Proof.
  intros Hen%enter_ok_iff Hw clear s_in. subst s_in.
  unfold Output.capture_decorator. fold clear. fold clear in Hw.
  split.
  - apply run_capture; [done |]. intros Ht.
    by rewrite (run_clear_output _ _ h s wait Hen (Hw Ht)).
  - unfold call_state. destruct (truthy clear).
    + rewrite (run_clear_output _ _ h s wait Hen (Hw eq_refl)).
      rewrite run_enter_ok by done. cbn [fst msg_id trace outputs tuples].
      by rewrite <- !app_assoc.
    + by rewrite run_enter_ok by done.
Qed.

Lemma capture_calls_clear_then_function_witness :
  trace (call_state (VBool true) [] [] kernel_ipython used_widget)
  = [Flush stdout; Flush stderr; ClearOutput (VBool false);
     Flush stdout; Flush stderr; Flush stdout; Flush stderr]
  ∧ read_outputs (call_state (VBool true) [] [] kernel_ipython used_widget)
    = read_outputs used_widget.
Proof.
  destruct (capture_calls_clear_then_function None [] [] reads_buffer [] []
              kernel_ipython used_widget (VBool false) eq_refl (λ _, eq_refl))
    as (_ & Htrace & _ & _ & Hread).
  split; [exact Htrace | exact Hread].
Defined.

(** A wrapper made with the default [clear_output], invoked on a widget that
    holds a record: the wrapped function still finds the record. *)
Lemma capture_leaves_buffer :
  ¬ finds_buffer_cleared kernel_ipython used_widget
  ∧ (Output.capture_decorator None [] [] reads_buffer [] []
       kernel_ipython used_widget).2
    = inr (VTuple (read_outputs used_widget)).
Proof.
  split; [unfold finds_buffer_cleared; vm_compute; discriminate |].
  vm_compute. reflexivity.
Qed.

(** A wrapped function that writes to the widget, under a kernel: what the
    host sees, and the message id during and after the call. *)
Example capture_under_kernel :
  let f := Output.capture_decorator None [] []
             (λ _ _, s <- get ;; Output.append_stdout (VStr (msg_id s))) in
  let r := f [] [] kernel_ipython new_widget in
  trace r.1 = [Flush stdout; Flush stderr; ClearOutput (VBool false);
               Flush stdout; Flush stderr;
               Flush stdout; Flush stderr;
               Flush stdout; Flush stderr]
  ∧ read_outputs r.1
    = [VDict {[ "output_type" := VStr "stream"; "name" := VStr "stdout";
                "text" := VStr "req-1" ]}]
  ∧ msg_id r.1 = EmptyString
  ∧ r.2 = inr VNone.
Proof. vm_compute. repeat split; reflexivity. Qed.

(** Further arguments that IPython's [clear_output] refuses: under a kernel
    the [TypeError] is shown and the wrapped function runs all the same;
    outside IPython [__exit__] fails on showing it and the function does not
    run. *)
Example capture_refused_arguments :
  let f := Output.capture_decorator None [VInt 1; VInt 2] [] reads_buffer in
  (f [] [] kernel_ipython used_widget).2 = inr (VTuple (read_outputs used_widget))
  ∧ (f [] [] no_ipython used_widget).2
    = inl (AttributeError "NoneType" "showtraceback")
  ∧ trace (f [] [] no_ipython used_widget).1 = [Flush stdout; Flush stderr].
Proof. vm_compute. repeat split; reflexivity. Qed.

(** The decorator's further arguments go to IPython's [clear_output], whose
    signature takes one argument at most. *)
Example clear_output_signature :
  clear_output_wait [] [] = inr (VBool false)
  ∧ clear_output_wait [VBool true] [] = inr (VBool true)
  ∧ clear_output_wait [] [("wait", VBool true)] = inr (VBool true)
  ∧ clear_output_wait [VStr "x"] [("wait", VBool true)]
    = inl (TypeError "clear_output() got multiple values for argument 'wait'")
  ∧ clear_output_wait [VInt 1; VInt 2] []
    = inl (TypeError
             "clear_output() takes from 0 to 1 positional arguments but 2 were given").
Proof. repeat split; reflexivity. Qed.

(** ** Exceptions in the capture scope *)

(** With an interpreter, [__exit__] hands the triple to [showtraceback] once,
    with [tb_offset=0], flushes, resets [msg_id] and answers [True]. *)
Theorem exit_shows_and_suppresses
    (h : host) (sh : shell) (etype evalue tb : value) (s : state) :
  get_ipython h = Some sh → etype ≠ VNone →
  Output.__exit__ etype evalue tb h s =
    (State EmptyString (outputs s) (tuples s)
           (trace s ++ [ShowTraceback sh (VTuple [etype; evalue; tb]) 0;
                        Flush stdout; Flush stderr]), inr (VBool true)).
Proof. apply run_exit_shown. Qed.

Lemma exit_shows_and_suppresses_witness :
  Output.__exit__ (VClass "ValueError") (exc_value boom) (exc_tb boom)
    kernel_ipython new_widget =
    (State EmptyString 0 {[ 0 := [] ]}
           [ShowTraceback kernel_shell
              (VTuple [VClass "ValueError"; exc_value boom; exc_tb boom]) 0;
            Flush stdout; Flush stderr], inr (VBool true)).
Proof.
  exact (exit_shows_and_suppresses kernel_ipython kernel_shell
           (VClass "ValueError") (exc_value boom) (exc_tb boom) new_widget
           eq_refl ltac:(discriminate)).
Defined.

(** C1: outside IPython, where [get_ipython()] is [None], [__exit__] called
    for [ValueError('boom')] raises an [AttributeError] on [None]: nothing is
    shown or flushed, [msg_id] is not reset and [True] is not returned, and
    the [with] statement lets that error out of the scope. *)
Theorem exit_without_ipython_raises :
  Output.__exit__ (VClass "ValueError") (exc_value boom) (exc_tb boom)
    no_ipython new_widget
  = (new_widget, inl (AttributeError "NoneType" "showtraceback"))
  ∧ (Output.with_self (raise boom : M value) no_ipython new_widget).2
    = inl (AttributeError "NoneType" "showtraceback").
Proof. split; reflexivity. Qed.

(** With an interpreter under which entering the scope goes through, a
    wrapper whose wrapped function raises returns [None]: the exception is
    shown once and does not leave the wrapper.  This holds whatever the
    decorator's further arguments are: under an interpreter the clear ends
    normally also when IPython's [clear_output] refuses them. *)
Theorem capture_returns_None_on_raise
    (clear : value) (outer_args : list value) (outer_kwargs : list (string * value))
    (func : list value → list (string * value) → M value)
    (args : list value) (kwargs : list (string * value))
    (h : host) (sh : shell) (s s2 : state) (e : exc) :
  get_ipython h = Some sh →
  (Output.__enter__ h s).2 = inr VNone →
  func args kwargs h (call_state clear outer_args outer_kwargs h s) = (s2, inl e) →
  Output.capture clear outer_args outer_kwargs func args kwargs h s =
    (State EmptyString (outputs s2) (tuples s2)
           (trace s2 ++ [ShowTraceback sh
                           (VTuple [VClass (exc_type e); exc_value e; exc_tb e]) 0;
                         Flush stdout; Flush stderr]), inr VNone).
Proof.
  intros Hip Hen%enter_ok_iff Hf.
  rewrite run_capture; [| done |].
  - rewrite Hf. unfold leave_and_return. cbn [fst snd].
    by rewrite (bind_ok _ _ _ _ _ _
                  (run_exit_shown h sh (VClass (exc_type e)) (exc_value e)
                     (exc_tb e) s2 Hip ltac:(discriminate))).
  - intros _.
    destruct (clear_output_wait outer_args outer_kwargs) as [e' | w] eqn:Hw.
    + by rewrite (run_clear_output_refused _ _ h sh s e' Hen Hip Hw).
    + by rewrite (run_clear_output _ _ h s w Hen Hw).
Qed.

Lemma capture_returns_None_on_raise_witness :
  (Output.capture (VBool true) [] [] raises_boom [] [] kernel_ipython new_widget).2
  = inr VNone.
Proof.
  by rewrite (capture_returns_None_on_raise (VBool true) [] [] raises_boom [] []
                kernel_ipython kernel_shell new_widget _ boom eq_refl eq_refl
                eq_refl).
Defined.

(** C10: outside IPython, where [get_ipython()] is [None], a wrapper whose
    wrapped function raises [ValueError('boom')] does not return [None]: it
    raises the [AttributeError] that [__exit__] runs into. *)
Theorem capture_without_ipython_raises :
  (Output.capture (VBool true) [] [] raises_boom [] [] no_ipython new_widget).2
  = inl (AttributeError "NoneType" "showtraceback")
  ∧ (Output.capture (VBool false) [] [] raises_boom [] [] no_ipython new_widget).2
  = inl (AttributeError "NoneType" "showtraceback").
Proof. split; reflexivity. Qed.

(** ** The package entry point *)

Lemma run_register_on_kernel k h s :
  register_comm_target (Some k) h s =
    (State (msg_id s) (outputs s) (tuples s)
           (trace s ++ [RegisterTarget k "ipython.widget" Widget_handle_comm_opened]),
     inr VNone).
Proof. reflexivity. Qed.

Lemma run_register_default (h : host) (s : state) :
  register_comm_target None h s =
    (s, inl match get_ipython h with
            | None => AttributeError "NoneType" "kernel"
            | Some sh =>
                match shell_kernel sh with
                | None => AttributeError (shell_class sh) "kernel"
                | Some _ => AttributeError "NoneType" "comm_manager"
                end
            end).
Proof.
  unfold register_comm_target, bind, ask.
  destruct (get_ipython h) as [sh |]; [| done].
  by destruct (shell_kernel sh).
Qed.

(** C9: [register_comm_target()] with its default argument always raises an
    [AttributeError] and registers nothing, whatever interpreter is running:
    on [None] for the attribute [kernel] when [get_ipython()] is [None], on
    the shell object when the shell has no [kernel] attribute, and on [None]
    for the attribute [comm_manager] when the shell has one, since the kernel
    it fetches is bound to [ip] and [kernel] is still [None]. *)
Theorem register_comm_target_default_raises (h : host) (s : state) :
  register_comm_target None h s =
    (s, inl match get_ipython h with
            | None => AttributeError "NoneType" "kernel"
            | Some sh =>
                match shell_kernel sh with
                | None => AttributeError (shell_class sh) "kernel"
                | Some _ => AttributeError "NoneType" "comm_manager"
                end
            end).
Proof. apply run_register_default. Qed.

(** Under terminal IPython the [AttributeError] of [register_comm_target()]
    is on the shell object, not on [None]. *)
Lemma register_comm_target_not_on_None :
  ¬ fails_on_None (register_comm_target None terminal_ipython new_widget).
Proof.
  intros [attr Hattr].
  rewrite run_register_default in Hattr.
  cbn in Hattr. discriminate Hattr.
Qed.

(** C5: [load_ipython_extension(ip)] returns normally in both cases: when
    [ip.kernel] holds a kernel, its one call into the host registers the
    target ['ipython.widget'] with [Widget.handle_comm_opened] on that
    kernel's comm manager; when [ip] has no [kernel] attribute, it makes no
    call and changes nothing. *)
Theorem load_ipython_extension_registers (ip : shell) (h : host) (s : state) :
  match shell_kernel ip with
  | Some (Some k) =>
      load_ipython_extension ip h s =
        (State (msg_id s) (outputs s) (tuples s)
               (trace s ++ [RegisterTarget k "ipython.widget"
                              Widget_handle_comm_opened]), inr VNone)
  | Some None => True
  | None => load_ipython_extension ip h s = (s, inr VNone)
  end.
Proof.
  unfold load_ipython_extension.
  destruct (shell_kernel ip) as [[k |] |]; [| done | done].
  by rewrite (bind_ok _ _ _ _ _ _ (run_register_on_kernel k h s)).
Qed.

(** A shell whose [kernel] attribute holds [None] has the attribute, and
    nothing is registered for it. *)
Lemma load_ipython_extension_kernel_None :
  ¬ (registers_widget_target unset_shell unset_ipython new_widget
     ↔ has_kernel_attr unset_shell).
Proof.
  intros [_ Hreg].
  destruct Hreg as [k Hk]; [by eexists |].
  unfold load_ipython_extension in Hk. cbn [shell_kernel unset_shell] in Hk.
  rewrite (bind_raise _ _ _ _ _ _
             (run_register_default unset_ipython new_widget)) in Hk.
  cbn in Hk. discriminate Hk.
Qed.

Lemma module_globals_file file star :
  is_Some (module_globals file star !! "__file__").
Proof.
  unfold module_globals. rewrite !lookup_insert_ne by done.
  apply lookup_union_is_Some. right.
  rewrite !lookup_insert_ne by done. rewrite lookup_insert_eq. by eexists.
Qed.

Lemma module_globals_path file star :
  star !! "path" = None → module_globals file star !! "path" = None.
Proof.
  intros Hstar. unfold module_globals. rewrite !lookup_insert_ne by done.
  apply lookup_union_None. split; [done |].
  by rewrite !lookup_insert_ne, lookup_empty by done.
Qed.

(** C6: when [from .widgets import *] binds no name [path], every call of
    [find_static_assets()] raises [NameError] for [path], after
    [os.path.abspath(__file__)] has been computed and without changing
    anything; no call returns a path. *)
Theorem find_static_assets_raises
    (os_path_abspath os_path_dirname : value → value)
    (os_path_join : value → value → value)
    (file : string) (star : gmap string value) (h : host) (s : state) :
  star !! "path" = None →
  find_static_assets os_path_abspath os_path_dirname os_path_join
    (module_globals file star) h s
  = (s, inl (NameError "path")).
Proof.
  intros Hstar. unfold find_static_assets, load_global, bind.
  destruct (module_globals_file file star) as [v ->].
  by rewrite (module_globals_path file star Hstar).
Qed.

Lemma find_static_assets_raises_witness :
  find_static_assets id id (λ a b, b)
    (module_globals "/site-packages/ipywidgets/__init__.py" widgets_names)
    kernel_ipython new_widget
  = (new_widget, inl (NameError "path")).
Proof.
  apply (find_static_assets_raises id id (λ a b, b)
           "/site-packages/ipywidgets/__init__.py" widgets_names
           kernel_ipython new_widget).
  reflexivity.
Defined.

(** ** Appends in sequence *)





(** A display append between two stream appends. *)
Example appends_with_display :
  let r := run_appends [AppendStdout "a"; AppendDisplayData (VStr "x");
                        AppendStderr "b"] kernel_ipython new_widget in
  trace r.1 = [ShellInstance; Format (VStr "x")]
  ∧ length (read_outputs r.1) = 3.
Proof. vm_compute. split; reflexivity. Qed.

(** ** The [with] statement on the widget *)

(** A body that ends normally, when entering the scope has gone through:
    the [with] statement hands the body's result on, with or without an
    interpreter; leaving the scope flushes both streams and resets [msg_id],
    and shows no traceback. *)
Theorem with_self_returns {A} (body : M A) (h : host) (s s2 : state) (a : A) :
  (Output.__enter__ h s).2 = inr VNone →
  body h (Output.__enter__ h s).1 = (s2, inr a) →
  Output.with_self body h s =
    (State EmptyString (outputs s2) (tuples s2)
           (trace s2 ++ [Flush stdout; Flush stderr]), inr (Some a)).
Proof.
  intros Hen Hbody. rewrite (run_with_self body h s Hen), Hbody.
  by rewrite (bind_ok _ _ _ _ _ _ (run_exit_none h s2)).
Qed.

Lemma with_self_returns_witness :
  Output.with_self (Output.append_stdout (VStr "a")) no_ipython new_widget =
    (State EmptyString 1
           {[ 0 := [];
              1 := [VDict {[ "output_type" := VStr "stream";
                             "name" := VStr "stdout"; "text" := VStr "a" ]}] ]}
           [Flush stdout; Flush stderr; Flush stdout; Flush stderr],
     inr (Some VNone)).
Proof.
  rewrite (with_self_returns (Output.append_stdout (VStr "a")) no_ipython
             new_widget
             (Output.append_stdout (VStr "a") no_ipython
                (Output.__enter__ no_ipython new_widget).1).1 VNone
             eq_refl eq_refl).
  vm_compute. reflexivity.
Defined.

(** A body that raises, under an interpreter and when entering the scope has
    gone through: the exception is shown by that
    interpreter's [showtraceback] exactly once, as the triple of its type,
    value and traceback with [tb_offset=0], the streams are flushed, [msg_id]
    is reset, and the [with] statement ends normally: the exception does not
    leave the scope. *)
Theorem with_self_suppresses {A} (body : M A)
    (h : host) (sh : shell) (s s2 : state) (e : exc) :
  get_ipython h = Some sh →
  (Output.__enter__ h s).2 = inr VNone →
  body h (Output.__enter__ h s).1 = (s2, inl e) →
  Output.with_self body h s =
    (State EmptyString (outputs s2) (tuples s2)
           (trace s2 ++ [ShowTraceback sh
                           (VTuple [VClass (exc_type e); exc_value e; exc_tb e]) 0;
                         Flush stdout; Flush stderr]), inr None).
Proof.
  intros Hip Hen Hbody. rewrite (run_with_self body h s Hen), Hbody.
  by rewrite (bind_ok _ _ _ _ _ _
                (run_exit_shown h sh (VClass (exc_type e)) (exc_value e)
                   (exc_tb e) s2 Hip ltac:(discriminate))).
Qed.

Lemma with_self_suppresses_witness :
  Output.with_self (raise boom : M value) kernel_ipython new_widget =
    (State EmptyString 0 {[ 0 := [] ]}
           [Flush stdout; Flush stderr;
            ShowTraceback kernel_shell
              (VTuple [VClass "ValueError"; exc_value boom; exc_tb boom]) 0;
            Flush stdout; Flush stderr], inr None).
Proof.
  exact (with_self_suppresses (raise boom : M value) kernel_ipython kernel_shell
           new_widget _ boom eq_refl eq_refl eq_refl).
Defined.

(** Scopes of one widget do not nest.  When a [with] block on the widget ends
    inside another [with] block on the same widget, what follows it in the
    outer block runs with [msg_id] empty, although the outer scope is still
    open: the inner [__exit__] has reset it, under a kernel too. *)
Theorem inner_scope_ends_capture
    (inner : M value) (rest : M value) (h : host) (s s1 : state) (x : option value) :
  Output.with_self inner h (Output.__enter__ h s).1 = (s1, inr x) →
  (r <- Output.with_self (Output.with_self inner ;;; rest) ;;
   match r with Some v => ret v | None => ret VNone end) h s
  = leave_and_return (rest h s1) h
  ∧ msg_id s1 = EmptyString.
Proof.
  intros Hinner. split.
  - pose proof (with_self_done_enter_ok inner h _ s1 x Hinner) as Hok.
    rewrite run_with_self_return by by apply enter_ok_iff.
    by rewrite (bind_ok _ _ _ _ _ _ Hinner).
  - exact (with_self_done_msg_id inner h _ s1 x Hinner).
Qed.

Lemma inner_scope_ends_capture_witness :
  let rest := s <- get ;; Output.append_stdout (VStr (msg_id s)) in
  let s1 := (Output.with_self (ret VNone) kernel_ipython
               (Output.__enter__ kernel_ipython new_widget).1).1 in
  (r <- Output.with_self (Output.with_self (ret VNone) ;;; rest) ;;
   match r with Some v => ret v | None => ret VNone end)
    kernel_ipython new_widget
  = leave_and_return (rest kernel_ipython s1) kernel_ipython
  ∧ msg_id s1 = EmptyString.
Proof.
  exact (inner_scope_ends_capture (ret VNone)
           (s <- get ;; Output.append_stdout (VStr (msg_id s)))
           kernel_ipython new_widget _ (Some VNone) eq_refl).
Defined.

(** Under a kernel serving ["req-1"]: a write after an inner block sees an
    empty [msg_id], a write before it sees the request's. *)
Example write_after_inner_scope :
  let write := s <- get ;; Output.append_stdout (VStr (msg_id s)) in
  read_outputs
    (Output.with_self (write ;;; Output.with_self (ret VNone) ;;; write)
       kernel_ipython new_widget).1
  = [VDict {[ "output_type" := VStr "stream"; "name" := VStr "stdout";
              "text" := VStr "req-1" ]};
     VDict {[ "output_type" := VStr "stream"; "name" := VStr "stdout";
              "text" := VStr EmptyString ]}].
Proof. vm_compute. reflexivity. Qed.

(** ** Clearing, and what the scope leaves alone *)



Lemma run_exit_no_exc h evalue tb s :
  Output.__exit__ VNone evalue tb h s =
    (State EmptyString (outputs s) (tuples s)
           (trace s ++ [Flush stdout; Flush stderr]), inr (VBool true)).
Proof.
  unfold Output.__exit__, bind, ask, ret. rewrite run_flush. reflexivity.
Qed.

Lemma run_exit_cases h etype evalue tb s :
  same_buffer s (Output.__exit__ etype evalue tb h s).1.
Proof.
  destruct (get_ipython h) as [sh |] eqn:Hip.
  - destruct etype; [by rewrite run_exit_no_exc | ..];
      by erewrite run_exit_shown by (exact Hip || discriminate).
  - destruct etype; [by rewrite run_exit_no_exc | ..];
      by erewrite run_exit_no_ipython by (exact Hip || discriminate).
Qed.

(** Entering and leaving the scope and flushing never touch the buffer: after
    [_flush], after [__enter__] and after [__exit__], with or without an
    exception and with or without an interpreter, also when [__exit__]
    raises, [outputs] is bound to the same tuple object and no tuple object
    has changed. *)
Theorem scope_keeps_buffer
    (h : host) (s : state) (etype evalue tb : value) :
  same_buffer s (Output._flush h s).1
  ∧ same_buffer s (Output.__enter__ h s).1
  ∧ same_buffer s (Output.__exit__ etype evalue tb h s).1.
Proof.
  split; [by rewrite run_flush |].
  split; [apply enter_same_buffer |].
  apply run_exit_cases.
Qed.

(** ** The decorator on a function that returns *)

(** A wrapper whose wrapped function returns [v] returns [v], with or without
    an interpreter, when entering the scope goes through and, if the wrapper
    clears, the decorator's further arguments fit the signature of IPython's
    [clear_output]; after the call the streams have been flushed and
    [msg_id] is empty, and leaving the scope has shown no traceback. *)
Theorem capture_returns_result
    (clear : value) (outer_args : list value) (outer_kwargs : list (string * value))
    (func : list value → list (string * value) → M value)
    (args : list value) (kwargs : list (string * value))
    (h : host) (s s2 : state) (wait v : value) :
  (Output.__enter__ h s).2 = inr VNone →
  (truthy clear = true → clear_output_wait outer_args outer_kwargs = inr wait) →
  func args kwargs h (call_state clear outer_args outer_kwargs h s) = (s2, inr v) →
  Output.capture clear outer_args outer_kwargs func args kwargs h s =
    (State EmptyString (outputs s2) (tuples s2)
           (trace s2 ++ [Flush stdout; Flush stderr]), inr v).
Proof.
  intros Hen%enter_ok_iff Hw Hf.
  rewrite run_capture; [| done |].
  - rewrite Hf. unfold leave_and_return. cbn [fst snd].
    by rewrite (bind_ok _ _ _ _ _ _ (run_exit_none h s2)).
  - intros Ht. by rewrite (run_clear_output _ _ h s wait Hen (Hw Ht)).
Qed.

Lemma capture_returns_result_witness :
  (Output.capture (VBool true) [VBool true] [] returns_first [VStr "x"] []
     no_ipython new_widget).2 = inr (VStr "x").
Proof.
  by rewrite (capture_returns_result (VBool true) [VBool true] [] returns_first
                [VStr "x"] [] no_ipython new_widget _ (VBool true) (VStr "x")
                eq_refl (λ _, eq_refl) eq_refl).
Defined.

(** ** The import hook and explicit kernels *)

(** [_handle_ipython()], which runs when the package is imported: outside
    IPython, and under a shell without a [kernel] attribute, it does nothing
    and returns [None]; under a shell whose [kernel] attribute holds a kernel
    its one call into the host registers ['ipython.widget'] with
    [Widget.handle_comm_opened] on that kernel. *)
Theorem handle_ipython_at_import (h : host) (s : state) :
  match get_ipython h with
  | None => _handle_ipython h s = (s, inr VNone)
  | Some ip =>
      match shell_kernel ip with
      | None => _handle_ipython h s = (s, inr VNone)
      | Some (Some k) =>
          _handle_ipython h s =
            (State (msg_id s) (outputs s) (tuples s)
                   (trace s ++ [RegisterTarget k "ipython.widget"
                                  Widget_handle_comm_opened]), inr VNone)
      | Some None => True
      end
  end.
Proof.
  unfold _handle_ipython. rewrite (bind_ok ask _ h s s h eq_refl).
  destruct (get_ipython h) as [ip |]; [| done].
  unfold load_ipython_extension.
  destruct (shell_kernel ip) as [[k |] |]; [| done | done].
  unfold bind at 1.
  by rewrite (bind_ok _ _ _ _ _ _ (run_register_on_kernel k h s)).
Qed.

(** With a kernel given, [register_comm_target] and its alias
    [handle_kernel] never consult [get_ipython()]: under any two hosts they
    make the same single registration on the given kernel and return [None];
    two calls make two registrations, in the order of the calls. *)
Theorem register_with_kernel_ignores_host
    (k k' : kernel) (h h' : host) (s : state) :
  register_comm_target (Some k) h s = register_comm_target (Some k) h' s
  ∧ handle_kernel (Some k) h s = register_comm_target (Some k) h s
  ∧ (register_comm_target (Some k) ;;; handle_kernel (Some k')) h s =
      (State (msg_id s) (outputs s) (tuples s)
             (trace s ++ [RegisterTarget k "ipython.widget" Widget_handle_comm_opened;
                          RegisterTarget k' "ipython.widget" Widget_handle_comm_opened]),
       inr VNone).
Proof.
  split; [by rewrite !run_register_on_kernel |].
  split; [reflexivity |].
  rewrite (bind_ok _ _ _ _ _ _ (run_register_on_kernel k h s)).
  unfold handle_kernel. rewrite run_register_on_kernel.
  cbn [msg_id outputs tuples trace]. by rewrite <- app_assoc.
Qed.
